(** * Field endpoints of the John Deere client: [johndeere/mixins/fields.py]

    A shallow embedding of [RecordStatuses], [FieldsMixin.get_fields] and
    [FieldsMixin.get_field], together with the collaborators the two methods
    call (the URL builder, the HTTP session, the extendable enumeration),
    followed by the properties of the two methods. *)

From stdpp Require Import gmap strings list pretty.

Open Scope string_scope.
Open Scope list_scope.

(** ** Python values reaching the two methods *)

(** The arguments annotated [int | str] and [str] are not checked by Python,
    so the embedding keeps a small universe of values and the builtin [str]
    on it. *)
Inductive PyVal :=
  | PyNone
  | PyBool (b : bool)
  | PyInt (z : Z)
  | PyStr (s : string).

(** Python's [str(v)]: the decimal rendering of an integer, a string itself. *)
Definition str (v : PyVal) : string :=
  match v with
  | PyNone => "None"
  | PyBool true => "True"
  | PyBool false => "False"
  | PyInt z => pretty z
  | PyStr s => s
  end.

(** The [embed] argument of [get_fields]: [str | list[str] | None]. *)
Inductive EmbedArg :=
  | EmbedNone
  | EmbedStr (s : string)
  | EmbedList (l : list string).

(** ** The URL builder collaborator

    [BASE_URL] is a [yarl.URL], a dependency outside the repository.  It is
    kept structured here, before any percent-encoding: an origin, the path
    segments and the ordered query pairs.  [u / name] appends one path
    segment and comes back without a query; [u % {k: v}] merges the pairs
    into the query, overwriting a key that is already there and appending a
    new one. *)
Module URL.

Record t := mk {
  origin : string;
  path : list string;
  query : list (string * string)
}.

Definition truediv (u : t) (name : string) : t :=
  {| origin := origin u; path := path u ++ [name]; query := [] |}.

(** One pair merged into an ordered multi-dict: the first occurrence of the
    key takes the new value and the later ones go; a new key goes last. *)
Fixpoint update_pair (k v : string) (q : list (string * string))
  : list (string * string) :=
  match q with
  | [] => [(k, v)]
  | (k', v') :: q' =>
      if String.eqb k' k
      then (k, v) :: List.filter (fun p => negb (String.eqb (fst p) k)) q'
      else (k', v') :: update_pair k v q'
  end.

Definition update_query (u : t) (d : list (string * string)) : t :=
  {| origin := origin u;
     path := path u;
     query := fold_left (fun q kv => update_pair (fst kv) (snd kv) q) d (query u) |}.

End URL.

Declare Scope url_scope.
Delimit Scope url_scope with url.
Bind Scope url_scope with URL.t.
Infix "/" := URL.truediv : url_scope.
Infix "%%" := URL.update_query (at level 40, left associativity) : url_scope.

(** ** The HTTP session collaborator *)

Unset Elimination Schemes.
Inductive Json :=
  | JNull
  | JBool (b : bool)
  | JNum (z : Z)
  | JStr (s : string)
  | JArr (items : list Json)
  | JObj (members : list (string * Json)).
Set Elimination Schemes.

(** What the methods look at in a response: its status, and the body as
    [json()] parses it ([None] when the body is not JSON). *)
Record Response := {
  status_code : Z;
  json_body : option Json
}.

Inductive exn :=
  | ValueError (msg : string)
  | ConnectionError (info : string)
  | HTTPStatusError (r : Response)
  | JSONDecodeError.

Inductive Request :=
  | GET (url : URL.t).

(** [self.private]: [get(url)] either fails in transport or answers. *)
Record Session := {
  get : URL.t -> exn + Response
}.

(** [self], as far as the mixin reads it. *)
Record Client := {
  BASE_URL : URL.t;
  private : Session
}.

(** ** Effects: the requests sent, the enumeration registry, exceptions *)

Record World := {
  registered : gset string;
  sent : list Request
}.

Inductive outcome (A : Type) :=
  | Return (a : A)
  | Raise (e : exn).
Arguments Return {A} a.
Arguments Raise {A} e.

Definition Py (A : Type) : Type := World -> outcome A * World.

#[global] Instance Py_ret : MRet Py := fun A a w => (Return a, w).
#[global] Instance Py_bind : MBind Py := fun A B f m w =>
  match m w with
  | (Return a, w') => f a w'
  | (Raise e, w') => (Raise e, w')
  end.

Definition raise {A : Type} (e : exn) : Py A := fun w => (Raise e, w).

(** The world after one more outbound request. *)
Definition record_request (rq : Request) (w : World) : World :=
  {| registered := registered w; sent := sent w ++ [rq] |}.

(** [self.private.get(url)] *)
Definition private_get (self : Client) (url : URL.t) : Py Response :=
  fun w =>
    match get (private self) url with
    | inl e => (Raise e, record_request (GET url) w)
    | inr r => (Return r, record_request (GET url) w)
    end.

Definition is_success (r : Response) : bool :=
  (200 <=? status_code r)%Z && (status_code r <? 300)%Z.

(** Modelled from the spec: the response object of the HTTP client is not
    under src/; its [raise_for_status()] fails on a non-2xx status with the
    client's HTTP error and its [json()] parses the body. *)
Definition raise_for_status (r : Response) : Py unit :=
  if is_success r then mret tt else raise (HTTPStatusError r).

Definition json (r : Response) : Py Json :=
  match json_body r with
  | Some j => mret j
  | None => raise JSONDecodeError
  end.

(** ** [RecordStatuses] *)

(** The members the class body declares. *)
Definition RecordStatuses : gset string := {[ "ALL"; "ACTIVE"; "ARCHIVED" ]}.

(** Modelled from the spec: [johndeere.enum.ExtendableStrEnum] is not under
    src/; it is a registry of strings checked by membership, to which callers
    may add accepted values at runtime without touching the class body. *)
Definition enum_values (declared : gset string) (w : World) : gset string :=
  declared ∪ registered w.

Definition enum_contains (declared : gset string) (v : string) : Py bool :=
  fun w => (Return (bool_decide (v ∈ enum_values declared w)), w).

Definition enum_extend (v : string) : Py unit :=
  fun w => (Return tt, {| registered := {[ v ]} ∪ registered w; sent := sent w |}).

(** ** [FieldsMixin] *)

Definition get_fields (self : Client) (org_id : PyVal)
    (field_name farm_name client_name : option string)
    (record_filter : string) (embed : EmbedArg) : Py Json :=
  let org_id := str org_id in
  let url := (BASE_URL self / "organizations" / org_id / "fields")%url in
  let url := match field_name with
             | Some v => (url %% [("fieldName", v)])%url
             | None => url
             end in
  let url := match farm_name with
             | Some v => (url %% [("farmName", v)])%url
             | None => url
             end in
  let url := match client_name with
             | Some v => (url %% [("clientName", v)])%url
             | None => url
             end in
  known ← enum_contains RecordStatuses record_filter;
  if (known : bool) then
    let url := (url %% [("recordFilter", record_filter)])%url in
    let url := (url %% [("embed", "clients,farms,boundaries")])%url in
    response ← private_get self url;
    _ ← raise_for_status response;
    json response
  else
    raise (ValueError ("Invalid record status: " +:+ record_filter)).

Definition get_field (self : Client) (org_id field_id : PyVal) : Py Json :=
  let org_id := str org_id in
  let field_id := str field_id in
  let url := (BASE_URL self / "organizations" / org_id / "fields" / field_id)%url in
  response ← private_get self url;
  _ ← raise_for_status response;
  json response.


(** ** The wire format of the two endpoints

    The URLs as the specification writes them, to be compared with the ones
    the methods build step by step. *)

(** A filter that is present contributes its pair, an absent one nothing. *)
Definition present (k : string) (o : option string) : list (string * string) :=
  match o with
  | Some v => [(k, v)]
  | None => []
  end.

(** [{base}/organizations/{orgId}/fields?fieldName=&farmName=&clientName=&recordFilter=&embed=clients,farms,boundaries] *)
Definition wire_fields_url (base : URL.t) (org : string)
    (field_name farm_name client_name : option string)
    (record_filter : string) : URL.t :=
  {| URL.origin := URL.origin base;
     URL.path := URL.path base ++ ["organizations"; org; "fields"];
     URL.query := present "fieldName" field_name ++ present "farmName" farm_name
                  ++ present "clientName" client_name
                  ++ [("recordFilter", record_filter);
                      ("embed", "clients,farms,boundaries")] |}.

(** [{base}/organizations/{orgId}/fields/{fieldId}] *)
Definition wire_field_url (base : URL.t) (org field : string) : URL.t :=
  {| URL.origin := URL.origin base;
     URL.path := URL.path base ++ ["organizations"; org; "fields"; field];
     URL.query := [] |}.

(** The tail the two methods share: do the private request, check for
    errors, decode. *)
Definition do_private_request (self : Client) (url : URL.t) : Py Json :=
  response ← private_get self url;
  _ ← raise_for_status response;
  json response.

(** ** Sample clients and worlds *)

Definition platform : URL.t :=
  {| URL.origin := "https://sandboxapi.deere.com";
     URL.path := ["platform"];
     URL.query := [] |}.

(** A client whose session gives the same reply to every request. *)
Definition client_replying (reply : exn + Response) : Client :=
  {| BASE_URL := platform; private := {| get := fun _ => reply |} |}.

Definition no_fields : Json := JObj [("total", JNum 0); ("values", JArr [])].

Definition ok_reply : Response :=
  {| status_code := 200; json_body := Some no_fields |}.


Definition fresh : World := {| registered := ∅; sent := [] |}.

(** ** Basic facts *)



Lemma str_int_decimal : str (PyInt 123) = "123" ∧ str (PyInt (-7)) = "-7".
Proof. split; vm_compute; reflexivity. Qed.

Lemma str_of_str (s : string) : str (PyStr s) = s.
Proof. reflexivity. Qed.


Section Round_trip.
Variables (self : Client) (url : URL.t) (w : World).

Lemma request_always_sent :
  sent (do_private_request self url w).2 = sent w ++ [GET url].
Proof.
  unfold do_private_request, mbind, Py_bind, private_get.
  destruct (get (private self) url) as [e|r]; [done|].
  unfold raise_for_status. destruct (is_success r); simpl.
  - unfold json. by destruct (json_body r).
  - done.
Qed.



End Round_trip.

(** The URL [get_field] builds is the wire URL. *)
Lemma get_field_unfold (self : Client) (org_id field_id : PyVal) (w : World) :
  get_field self org_id field_id w
  = do_private_request self
      (wire_field_url (BASE_URL self) (str org_id) (str field_id)) w.
Proof.
  unfold get_field, do_private_request, wire_field_url, URL.truediv. simpl.
  by rewrite <- !app_assoc.
Qed.

Section Get_fields.
Variables (self : Client) (org_id : PyVal).
Variables (field_name farm_name client_name : option string).
Variables (record_filter : string) (embed : EmbedArg) (w : World).

(** An unknown record status fails before anything is sent. *)
Lemma get_fields_unknown :
  record_filter ∉ RecordStatuses ∪ registered w →
  get_fields self org_id field_name farm_name client_name record_filter embed w
  = (Raise (ValueError ("Invalid record status: " +:+ record_filter)), w).
Proof.
  intros Hn. unfold get_fields, mbind, Py_bind, enum_contains, enum_values.
  by rewrite bool_decide_eq_false_2.
Qed.

(** With a known record status the URL built is the wire URL. *)
Lemma get_fields_known :
  record_filter ∈ RecordStatuses ∪ registered w →
  get_fields self org_id field_name farm_name client_name record_filter embed w
  = do_private_request self
      (wire_fields_url (BASE_URL self) (str org_id)
         field_name farm_name client_name record_filter) w.
Proof.
  intros Hin. unfold get_fields, mbind, Py_bind, enum_contains, enum_values.
  rewrite bool_decide_eq_true_2 by done.
  unfold do_private_request, wire_fields_url, URL.update_query, URL.truediv.
  destruct field_name, farm_name, client_name; simpl;
    by rewrite <- !app_assoc.
Qed.
End Get_fields.

(** ** Properties of [get_fields] and [get_field] *)





(** C3: whenever [get_fields] returns, whichever optional arguments were
    given, the URL of the GET request it sent carries
    embed=clients,farms,boundaries. *)
Theorem get_fields_always_embeds
    (self : Client) (org_id : PyVal)
    (field_name farm_name client_name : option string)
    (record_filter : string) (embed : EmbedArg) (w w' : World) (j : Json) :
  get_fields self org_id field_name farm_name client_name record_filter embed w
  = (Return j, w') →
  ∃ url : URL.t,
    sent w' = sent w ++ [GET url]
    ∧ ("embed", "clients,farms,boundaries") ∈ URL.query url.
Proof.
  intros Hrun.
  destruct (decide (record_filter ∈ RecordStatuses ∪ registered w)) as [Hin|Hn].
  - rewrite get_fields_known in Hrun by done.
    eexists. split.
    + replace w' with
        (do_private_request self
           (wire_fields_url (BASE_URL self) (str org_id) field_name farm_name
              client_name record_filter) w).2 by (by rewrite Hrun).
      apply request_always_sent.
    + simpl. rewrite !elem_of_app. do 3 right.
      apply list_elem_of_further, list_elem_of_here.
  - rewrite get_fields_unknown in Hrun by done. discriminate.
Qed.

Lemma get_fields_north40_embeds :
  get_fields (client_replying (inr ok_reply)) (PyInt 1) (Some "North40") None
    None "ACTIVE" EmbedNone fresh
  = (Return no_fields,
     record_request
       (GET (wire_fields_url platform "1" (Some "North40") None None "ACTIVE"))
       fresh)
  ∧ ∃ url : URL.t,
      sent (record_request
              (GET (wire_fields_url platform "1" (Some "North40") None None
                      "ACTIVE")) fresh)
      = sent fresh ++ [GET url]
      ∧ ("embed", "clients,farms,boundaries") ∈ URL.query url.
Proof.
  assert (Hrun :
    get_fields (client_replying (inr ok_reply)) (PyInt 1) (Some "North40") None
      None "ACTIVE" EmbedNone fresh
    = (Return no_fields,
       record_request
         (GET (wire_fields_url platform "1" (Some "North40") None None "ACTIVE"))
         fresh)).
  { vm_compute. reflexivity. }
  split; [exact Hrun|].
  exact (get_fields_always_embeds _ _ _ _ _ _ _ _ _ _ Hrun).
Defined.

(** C4: the [embed] argument of [get_fields] is dead: two calls that differ
    only in it leave the same world behind (the same request, to the same
    URL) and have the same outcome. *)
Theorem get_fields_ignores_embed
    (self : Client) (org_id : PyVal)
    (field_name farm_name client_name : option string)
    (record_filter : string) (embed1 embed2 : EmbedArg) (w : World) :
  get_fields self org_id field_name farm_name client_name record_filter embed1 w
  = get_fields self org_id field_name farm_name client_name record_filter
      embed2 w.
Proof. reflexivity. Qed.












(** A field id that is not a string is rendered, not rejected. *)
Example get_field_integer_field_id :
  get_field (client_replying (inr ok_reply)) (PyStr "1") (PyInt 42) fresh
  = (Return no_fields,
     record_request (GET (wire_field_url platform "1" "42")) fresh).
Proof. vm_compute. reflexivity. Qed.

(** Registering a value makes the call that was refused go through. *)
Example get_fields_after_extension :
  (get_fields (client_replying (inr ok_reply)) (PyInt 1) None None None
     "DELETED" EmbedNone fresh).1
  = Raise (ValueError "Invalid record status: DELETED")
  ∧ (get_fields (client_replying (inr ok_reply)) (PyInt 1) None None None
       "DELETED" EmbedNone (enum_extend "DELETED" fresh).2).1
    = Return no_fields.
Proof. split; vm_compute; reflexivity. Qed.

(** ** Further properties of the two methods *)



Lemma do_private_request_frame (self : Client) (url : URL.t) (w : World) :
  (do_private_request self url w).2 = record_request (GET url) w.
Proof.
  unfold do_private_request, mbind, Py_bind, private_get.
  destruct (get (private self) url) as [e|r]; [done|].
  unfold raise_for_status. destruct (is_success r); simpl; [|done].
  unfold json. by destruct (json_body r).
Qed.








(** X4: neither method touches the registry of record statuses, and neither
    drops or reorders the requests sent before: the earlier list is a prefix
    of the later one. *)
Theorem methods_keep_registry_and_history
    (self : Client) (org_id field_id : PyVal)
    (field_name farm_name client_name : option string)
    (record_filter : string) (embed : EmbedArg) (w : World) :
  registered (get_fields self org_id field_name farm_name client_name
                record_filter embed w).2 = registered w
  ∧ sent w `prefix_of` sent (get_fields self org_id field_name farm_name
                               client_name record_filter embed w).2
  ∧ registered (get_field self org_id field_id w).2 = registered w
  ∧ sent w `prefix_of` sent (get_field self org_id field_id w).2.
Proof.
  assert (Hfield : (get_field self org_id field_id w).2
                   = record_request
                       (GET (wire_field_url (BASE_URL self) (str org_id)
                               (str field_id))) w).
  { rewrite get_field_unfold. apply do_private_request_frame. }
  destruct (decide (record_filter ∈ RecordStatuses ∪ registered w)) as [Hin|Hn].
  - rewrite get_fields_known, do_private_request_frame, Hfield by done.
    simpl. split_and!; [done|by apply prefix_app_r|done|by apply prefix_app_r].
  - rewrite get_fields_unknown, Hfield by done.
    simpl. split_and!; [done|done|done|by apply prefix_app_r].
Qed.



(** X6: organization ids with the same [str] are interchangeable, as are
    field ids: an integer and the string of its digits give the same call of
    either method, outcome and requests alike. *)
Theorem ids_with_equal_str_interchangeable
    (self : Client) (org_id org_id' field_id field_id' : PyVal)
    (field_name farm_name client_name : option string)
    (record_filter : string) (embed : EmbedArg) (w : World) :
  str org_id = str org_id' →
  str field_id = str field_id' →
  get_fields self org_id field_name farm_name client_name record_filter embed w
  = get_fields self org_id' field_name farm_name client_name record_filter
      embed w
  ∧ get_field self org_id field_id w = get_field self org_id' field_id' w.
Proof.
  intros Horg Hfield. unfold get_fields, get_field.
  by rewrite Horg, Hfield.
Qed.

Lemma ids_123_interchangeable :
  str (PyInt 123) = str (PyStr "123")
  ∧ str (PyBool true) = str (PyStr "True")
  ∧ get_field (client_replying (inr ok_reply)) (PyInt 123) (PyBool true) fresh
    = get_field (client_replying (inr ok_reply)) (PyStr "123") (PyStr "True")
        fresh.
Proof.
  assert (Horg : str (PyInt 123) = str (PyStr "123")).
  { vm_compute. reflexivity. }
  assert (Hfield : str (PyBool true) = str (PyStr "True")) by reflexivity.
  split; [exact Horg|]. split; [exact Hfield|].
  exact (proj2 (ids_with_equal_str_interchangeable
                  (client_replying (inr ok_reply)) (PyInt 123) (PyStr "123")
                  (PyBool true) (PyStr "True") None None None "ACTIVE"
                  EmbedNone fresh Horg Hfield)).
Defined.









